(** * Document validation engine: model and verification

    Shallow embedding of [app/models/document.py] and
    [app/services/validator.py].  The validator is written once, over an
    interface for the three operations of Python's [random] module it calls
    ([random.choice], [random.random], [random.randint]).  The interface is
    interpreted twice:

    - [Run]: a state monad reading an arbitrary infinite sequence of draws,
      used for every statement of the form "for every sequence of draws";
    - [Expect]: the expectation monad of the uniform distributions that the
      [random] module documents, used for statements about probabilities. *)

From Stdlib Require Import ZArith NArith QArith List String Bool Lia.
Import ListNotations.

Local Open Scope string_scope.
Local Open Scope Z_scope.

(* ===================================================================== *)
(** * Python floats in [0, 1) as dyadic rationals *)
(* ===================================================================== *)

(** A finite IEEE-754 double is a dyadic rational; [pyfloat] keeps the
    non-negative ones as [fl_num / 2 ^ fl_exp]. *)
Record pyfloat : Type := mk_pyfloat { fl_num : N; fl_exp : N }.

(** The literals [0.3] and [0.2] are the doubles [0x1.3333333333333p-2] and
    [0x1.999999999999ap-3]. *)
Definition float_0_3 : pyfloat := mk_pyfloat 5404319552844595 54.
Definition float_0_2 : pyfloat := mk_pyfloat 3602879701896397 54.

(** [x > y] on doubles is the comparison of the rationals they denote. *)
Definition float_gt (x y : pyfloat) : bool :=
  (fl_num y * 2 ^ fl_exp x <? fl_num x * 2 ^ fl_exp y)%N.

(** [random.random()] returns [k / 2^53] for a 53-bit integer [k]. *)
Definition random_bits : N := 53.
Definition random_float (k : N) : pyfloat := mk_pyfloat k random_bits.

(* ===================================================================== *)
(** * app/models/document.py *)
(* ===================================================================== *)

Inductive DocumentType : Type :=
| BANK_STATEMENT
| PAYSLIP
| IRP
| PPSN
| TAX_RECORD.

(** [DocumentType] is a [str]-mixin enumeration: each member is the string
    below and compares with [==] as that string. *)
Definition DocumentType_value (t : DocumentType) : string :=
  match t with
  | BANK_STATEMENT => "bank_statement"
  | PAYSLIP => "payslip"
  | IRP => "irp"
  | PPSN => "ppsn"
  | TAX_RECORD => "tax_record"
  end.

Definition all_DocumentType : list DocumentType :=
  [BANK_STATEMENT; PAYSLIP; IRP; PPSN; TAX_RECORD].

(** A point in time, as microseconds since the epoch. *)
Definition datetime : Type := Z.

(** [document_type] holds the string the field compares as, so that a
    document whose type is none of the five members can be written down. *)
Record Document : Type := mk_Document {
  file_path : string;
  document_type : string;
  customer_name : string;
  customer_id : string;
  upload_date : datetime;
  metadata : list (string * string)
}.

Record ValidationCheck : Type := mk_ValidationCheck {
  check_type : string;
  passed : bool;
  details : string
}.

Record ValidationResult : Type := mk_ValidationResult {
  document : Document;
  is_valid : bool;
  risk_score : Z;
  checks : list ValidationCheck;
  anomalies : list string;
  recommendations : list string;
  validation_date : datetime
}.

(** A document type is known when it is the value of a member. *)
Definition known_type (s : string) : bool :=
  existsb (fun t => String.eqb s (DocumentType_value t)) all_DocumentType.

(* ===================================================================== *)
(** * The operations of [random] used by the validator *)
(* ===================================================================== *)

(** The validator calls [random.choice], [random.random] and
    [random.randint].  All three draw one integer below a bound and map it,
    so the interface has that draw as its one primitive. *)
Class RandomSource (M : Type -> Type) : Type := {
  ret : forall {A : Type}, A -> M A;
  bind : forall {A B : Type}, M A -> (A -> M B) -> M B;
  (** an integer [i] with [0 <= i < n] *)
  randbelow : N -> M N
}.

Declare Scope rand_scope.
Delimit Scope rand_scope with rand.
Notation "x <- c1 ;; c2" := (bind c1 (fun x => c2))
  (at level 61, c1 at next level, right associativity) : rand_scope.

Section RandomModule.

Context {M : Type -> Type} `{RandomSource M}.
Local Open Scope rand_scope.

(** [random.choice(seq)] on the non-empty sequence [x :: xs]:
    [seq[randbelow(len(seq))]]. *)
Definition random_choice {A : Type} (x : A) (xs : list A) : M A :=
  i <- randbelow (N.of_nat (List.length (x :: xs))) ;;
  ret (nth (N.to_nat i) (x :: xs) x).

(** [random.random()]: 53 random bits scaled by [2 ** -53]. *)
Definition random_random : M pyfloat :=
  k <- randbelow (2 ^ random_bits) ;;
  ret (random_float k).

(** [random.randint(a, b)]: [a + randbelow(b - a + 1)]. *)
Definition random_randint (a b : Z) : M Z :=
  i <- randbelow (Z.to_N (b - a + 1)) ;;
  ret (a + Z.of_N i).

End RandomModule.

(* ===================================================================== *)
(** * app/services/validator.py *)
(* ===================================================================== *)

Section Validator.

Context {M : Type -> Type} `{RandomSource M}.

(** The default of the field [validation_date] is the value that
    [datetime.now()] returned when the class body of [ValidationResult]
    was executed. *)
Variable class_now : datetime.

(** [ValidationResult(document=..., is_valid=..., risk_score=...,
    checks=..., anomalies=..., recommendations=...)]: the call sites never
    pass [validation_date], which takes the class default. *)
Definition new_ValidationResult (d : Document) (v : bool) (r : Z)
    (cs : list ValidationCheck) (an rec : list string) : ValidationResult :=
  mk_ValidationResult d v r cs an rec class_now.

(** [all(check.passed for check in checks)] *)
Definition all_passed (cs : list ValidationCheck) : bool :=
  forallb passed cs.

(** [for check in checks: if not check.passed: risk_score += step] *)
Definition add_failed (step : Z) (cs : list ValidationCheck) (base : Z) : Z :=
  fold_left (fun risk c => if negb (passed c) then risk + step else risk)
            cs base.

(** [max(0, min(100, risk_score))] *)
Definition clamp_risk (r : Z) : Z := Z.max 0 (Z.min 100 r).

(** [lst.append(x)] *)
Definition append (lst : list string) (x : string) : list string :=
  (lst ++ [x])%list.

(** [any(c.check_type == name and not c.passed for c in checks)] *)
Definition any_failed (name : string) (cs : list ValidationCheck) : bool :=
  existsb (fun c => String.eqb (check_type c) name && negb (passed c)) cs.

(** The anomaly loop: [for check in checks: if not check.passed: ...] with
    [on_fail] the [if]/[elif] chain over [check.check_type], which appends
    to the list or leaves it alone. *)
Definition collect_anomalies (on_fail : string -> list string -> list string)
    (cs : list ValidationCheck) : list string :=
  fold_left (fun acc c => if negb (passed c) then on_fail (check_type c) acc
                          else acc)
            cs [].

Local Open Scope rand_scope.

Definition _validate_bank_statement (doc : Document) : M ValidationResult :=
  p4 <- random_choice true [false] ;;
  r4 <- random_random ;;
  p5 <- random_choice true [false] ;;
  r5 <- random_random ;;
  let checks :=
    [ mk_ValidationCheck "Template Verification" true
        "Document matches known bank statement template";
      mk_ValidationCheck "Logo Verification" true
        "Bank logo position and appearance verified";
      mk_ValidationCheck "Account Number Format" true
        "IBAN format is valid";
      mk_ValidationCheck "Balance Calculation" p4
        (if float_gt r4 float_0_3
         then "Opening balance + transactions = closing balance"
         else "Discrepancy detected in balance calculation");
      mk_ValidationCheck "Transaction Pattern Analysis" p5
        (if float_gt r5 float_0_3
         then "Transaction patterns appear normal"
         else "Unusual transaction patterns detected") ] in
  let is_valid := all_passed checks in
  let risk_score := add_failed 20 checks 10 in
  adj <- random_randint (-10) 10 ;;
  let risk_score := risk_score + adj in
  let risk_score := clamp_risk risk_score in
  let anomalies :=
    collect_anomalies
      (fun ct acc =>
         if String.eqb ct "Balance Calculation" then
           append acc "Balance discrepancy: Opening balance + transactions does not equal closing balance"
         else if String.eqb ct "Transaction Pattern Analysis" then
           append acc "Unusual pattern: Multiple large round-sum deposits detected"
         else acc)
      checks in
  let recommendations :=
    if is_valid then
      append [] "Document appears valid - proceed with standard processing"
    else
      let recs := append [] "Request additional verification from customer" in
      if any_failed "Balance Calculation" checks then
        append recs "Verify transaction history with issuing bank"
      else recs in
  ret (new_ValidationResult doc is_valid risk_score checks anomalies
                            recommendations).

Definition _validate_payslip (doc : Document) : M ValidationResult :=
  p1 <- random_choice true [true; false] ;;
  r1 <- random_random ;;
  p2 <- random_choice true [true; false] ;;
  r2 <- random_random ;;
  p3 <- random_choice true [true; false] ;;
  r3 <- random_random ;;
  let checks :=
    [ mk_ValidationCheck "Employer Verification" p1
        (if float_gt r1 float_0_2
         then "Employer details match registered business"
         else "Employer details could not be verified");
      mk_ValidationCheck "Tax Calculation" p2
        (if float_gt r2 float_0_2
         then "Tax calculations are correct"
         else "Discrepancies found in tax calculations");
      mk_ValidationCheck "Salary Consistency" p3
        (if float_gt r3 float_0_2
         then "Salary figures are consistent throughout document"
         else "Inconsistent salary figures detected");
      mk_ValidationCheck "Document Format" true
        "Document format matches standard payslip format" ] in
  let is_valid := all_passed checks in
  let risk_score := add_failed 25 checks 15 in
  adj <- random_randint (-10) 10 ;;
  let risk_score := risk_score + adj in
  let risk_score := clamp_risk risk_score in
  let anomalies :=
    collect_anomalies
      (fun ct acc =>
         if String.eqb ct "Employer Verification" then
           append acc "Employer not found in registered business database"
         else if String.eqb ct "Tax Calculation" then
           append acc "Tax calculation does not match standard rates for income level"
         else if String.eqb ct "Salary Consistency" then
           append acc "Gross salary does not match sum of net pay and deductions"
         else acc)
      checks in
  let recommendations :=
    if is_valid then
      append [] "Payslip appears valid - proceed with standard processing"
    else
      let recs := append [] "Request additional verification from customer" in
      if any_failed "Employer Verification" checks then
        append recs "Verify employer existence through Companies Registration Office"
      else recs in
  ret (new_ValidationResult doc is_valid risk_score checks anomalies
                            recommendations).

Definition _validate_irp (doc : Document) : M ValidationResult :=
  p2 <- random_choice true [true; false] ;;
  r2 <- random_random ;;
  p3 <- random_choice true [true; false] ;;
  r3 <- random_random ;;
  let checks :=
    [ mk_ValidationCheck "Document Format" true
        "Document format matches official IRP card format";
      mk_ValidationCheck "Security Features" p2
        (if float_gt r2 float_0_2
         then "Security features present and valid"
         else "One or more security features could not be verified");
      mk_ValidationCheck "Expiration Date" p3
        (if float_gt r3 float_0_2
         then "IRP is current and not expired"
         else "IRP appears to be expired");
      mk_ValidationCheck "GNIB Number Format" true
        "GNIB number format is valid" ] in
  let is_valid := all_passed checks in
  let risk_score := add_failed 25 checks 20 in
  adj <- random_randint (-10) 10 ;;
  let risk_score := risk_score + adj in
  let risk_score := clamp_risk risk_score in
  let anomalies :=
    collect_anomalies
      (fun ct acc =>
         if String.eqb ct "Security Features" then
           append acc "Missing or altered security features detected"
         else if String.eqb ct "Expiration Date" then
           append acc "Document appears to be expired or date has been altered"
         else acc)
      checks in
  let recommendations :=
    if is_valid then
      append [] "IRP appears valid - proceed with standard processing"
    else
      let recs := append [] "Request physical verification of original document" in
      if any_failed "Security Features" checks then
        append recs "Escalate to fraud department for detailed investigation"
      else recs in
  ret (new_ValidationResult doc is_valid risk_score checks anomalies
                            recommendations).

Definition _validate_ppsn (doc : Document) : M ValidationResult :=
  p3 <- random_choice true [true; false] ;;
  r3 <- random_random ;;
  p4 <- random_choice true [true; false] ;;
  r4 <- random_random ;;
  let checks :=
    [ mk_ValidationCheck "PPSN Format" true
        "PPSN format is valid (7 digits + 1-2 letters)";
      mk_ValidationCheck "Document Format" true
        "Document format matches official PPSN documentation";
      mk_ValidationCheck "Name Matching" p3
        (if float_gt r3 float_0_2
         then "Name on document matches application name"
         else "Name discrepancy detected");
      mk_ValidationCheck "DOB Consistency" p4
        (if float_gt r4 float_0_2
         then "Date of birth is consistent with other documents"
         else "Date of birth discrepancy detected") ] in
  let is_valid := all_passed checks in
  let risk_score := add_failed 25 checks 15 in
  adj <- random_randint (-10) 10 ;;
  let risk_score := risk_score + adj in
  let risk_score := clamp_risk risk_score in
  let anomalies :=
    collect_anomalies
      (fun ct acc =>
         if String.eqb ct "Name Matching" then
           append acc "Name on PPSN document does not match name on application"
         else if String.eqb ct "DOB Consistency" then
           append acc "Date of birth on PPSN document does not match other provided documents"
         else acc)
      checks in
  let recommendations :=
    if is_valid then
      append [] "PPSN document appears valid - proceed with standard processing"
    else
      let recs := append [] "Request additional identification documents" in
      if any_failed "Name Matching" checks then
        append recs "Verify name change documentation if applicable"
      else recs in
  ret (new_ValidationResult doc is_valid risk_score checks anomalies
                            recommendations).

Definition _validate_tax_record (doc : Document) : M ValidationResult :=
  p3 <- random_choice true [true; false] ;;
  r3 <- random_random ;;
  p4 <- random_choice true [true; false] ;;
  r4 <- random_random ;;
  p5 <- random_choice true [true; false] ;;
  r5 <- random_random ;;
  let checks :=
    [ mk_ValidationCheck "Document Format" true
        "Document format matches official tax record format";
      mk_ValidationCheck "Tax Year Verification" true
        "Tax year is current or recent";
      mk_ValidationCheck "Income Consistency" p3
        (if float_gt r3 float_0_2
         then "Income figures are consistent with other documents"
         else "Income discrepancies detected");
      mk_ValidationCheck "Tax Calculation" p4
        (if float_gt r4 float_0_2
         then "Tax calculations appear correct"
         else "Tax calculation anomalies detected");
      mk_ValidationCheck "Official Stamps/Watermarks" p5
        (if float_gt r5 float_0_2
         then "Official stamps/watermarks verified"
         else "Official stamps/watermarks could not be verified") ] in
  let is_valid := all_passed checks in
  let risk_score := add_failed 20 checks 25 in
  adj <- random_randint (-10) 10 ;;
  let risk_score := risk_score + adj in
  let risk_score := clamp_risk risk_score in
  let anomalies :=
    collect_anomalies
      (fun ct acc =>
         if String.eqb ct "Income Consistency" then
           append acc "Reported income does not match income on other documents"
         else if String.eqb ct "Tax Calculation" then
           append acc "Tax amounts do not align with standard calculation for reported income"
         else if String.eqb ct "Official Stamps/Watermarks" then
           append acc "Document lacks proper official authentication markers"
         else acc)
      checks in
  let recommendations :=
    if is_valid then
      append [] "Tax record appears valid - proceed with standard processing"
    else
      let recs := append [] "Request additional verification from tax authority" in
      if any_failed "Income Consistency" checks then
        append recs "Cross-verify income with payslips and bank statements"
      else recs in
  ret (new_ValidationResult doc is_valid risk_score checks anomalies
                            recommendations).

Definition validate_document (doc : Document) : M ValidationResult :=
  if String.eqb (document_type doc) (DocumentType_value BANK_STATEMENT) then
    _validate_bank_statement doc
  else if String.eqb (document_type doc) (DocumentType_value PAYSLIP) then
    _validate_payslip doc
  else if String.eqb (document_type doc) (DocumentType_value IRP) then
    _validate_irp doc
  else if String.eqb (document_type doc) (DocumentType_value PPSN) then
    _validate_ppsn doc
  else if String.eqb (document_type doc) (DocumentType_value TAX_RECORD) then
    _validate_tax_record doc
  else
    ret (new_ValidationResult doc false 100
           [ mk_ValidationCheck "Document Type" false "Unknown document type" ]
           [ "Unknown document type" ]
           [ "Please select a valid document type" ]).

End Validator.

Arguments validate_document {M _} class_now doc.
Arguments _validate_bank_statement {M _} class_now doc.
Arguments _validate_payslip {M _} class_now doc.
Arguments _validate_irp {M _} class_now doc.
Arguments _validate_ppsn {M _} class_now doc.
Arguments _validate_tax_record {M _} class_now doc.

(* ===================================================================== *)
(** * Running on a sequence of draws *)
(* ===================================================================== *)

(** The generator: an infinite sequence of raw words and the index of the
    next one.  Every operation of [random] consumes one word. *)
Record rng : Type := mk_rng { words : nat -> N; cursor : nat }.

Definition Run (A : Type) : Type := rng -> A * rng.

Definition Run_ret {A : Type} (a : A) : Run A := fun s => (a, s).

Definition Run_bind {A B : Type} (m : Run A) (k : A -> Run B) : Run B :=
  fun s => k (fst (m s)) (snd (m s)).

(** An integer below [n], from the next word. *)
Definition Run_randbelow (n : N) : Run N :=
  fun s => ((words s (cursor s) mod n)%N, mk_rng (words s) (S (cursor s))).

#[global] Instance Run_source : RandomSource Run := {
  ret := @Run_ret;
  bind := @Run_bind;
  randbelow := Run_randbelow
}.

(** The generator that starts at the first word of [ws]. *)
Definition seeded (ws : nat -> N) : rng := mk_rng ws 0.

(** The generator that replays the finite list [ws], then zeros. *)
Definition replay (ws : list N) : rng := seeded (fun i => nth i ws 0%N).

(** The result of one call of [validate_document]. *)
Definition validate (class_now : datetime) (doc : Document) (s : rng)
    : ValidationResult :=
  fst (validate_document (M := Run) class_now doc s).

(** A document of the given type; the other fields are arbitrary. *)
Definition sample_document (ty : string) : Document :=
  mk_Document "uploads/statement.pdf" ty "Unknown" "Unknown" 0 [].

(* ===================================================================== *)
(** * Expectations under uniform draws *)
(* ===================================================================== *)

(** [Expect A] maps a payoff on outcomes to its mean. *)
Definition Expect (A : Type) : Type := (A -> Q) -> Q.

Definition Expect_ret {A : Type} (a : A) : Expect A := fun f => f a.

Definition Expect_bind {A B : Type} (m : Expect A) (k : A -> Expect B)
    : Expect B :=
  fun f => m (fun a => k a f).

(** [f 0 + f 1 + ... + f (n - 1)] *)
Definition sum_below (n : N) (f : N -> Q) : Q :=
  N.peano_rect (fun _ => Q) 0%Q (fun k acc => (acc + f k)%Q) n.

(** Each of the [n] integers below [n] is equally likely. *)
Definition Expect_randbelow (n : N) : Expect N :=
  fun f => (sum_below n f / inject_Z (Z.of_N n))%Q.

#[global] Instance Expect_source : RandomSource Expect := {
  ret := @Expect_ret;
  bind := @Expect_bind;
  randbelow := Expect_randbelow
}.

(** The probability that the outcome of [m] satisfies [ev]. *)
Definition Pr {A : Type} (m : Expect A) (ev : A -> bool) : Q :=
  m (fun a => if ev a then 1%Q else 0%Q).

(** The event "check number [j] of the result passed". *)
Definition check_passes (j : nat) (r : ValidationResult) : bool :=
  match nth_error (checks r) j with
  | Some c => passed c
  | None => false
  end.

(** The probability that check [j] (counted from 0) of the result passes. *)
Definition pass_probability (class_now : datetime) (doc : Document) (j : nat)
    : Q :=
  Pr (validate_document (M := Expect) class_now doc) (check_passes j).

(* ===================================================================== *)
(** * Vocabulary of the specification *)
(* ===================================================================== *)

(** The base risk the specification gives for each type. *)
Definition spec_base_risk (t : DocumentType) : Z :=
  match t with
  | BANK_STATEMENT => 10
  | PAYSLIP => 15
  | IRP => 20
  | PPSN => 15
  | TAX_RECORD => 25
  end.

(** The increment the specification gives for each failed check. *)
Definition spec_failed_step (t : DocumentType) : Z :=
  match t with
  | BANK_STATEMENT | TAX_RECORD => 20
  | PAYSLIP | IRP | PPSN => 25
  end.

(** The number of checks with [passed = false]. *)
Definition failed_count (cs : list ValidationCheck) : Z :=
  Z.of_nat (List.length (filter (fun c => negb (passed c)) cs)).

(** The number of draws each validator makes before [random.randint]: two
    for every check whose [passed] flag is drawn. *)
Definition draws_before_adjustment (t : DocumentType) : nat :=
  match t with
  | BANK_STATEMENT | IRP | PPSN => 4
  | PAYSLIP | TAX_RECORD => 6
  end.

(** The generator after [n] further draws. *)
Definition skip (n : nat) (s : rng) : rng :=
  mk_rng (words s) (n + cursor s).

(** The outcome of the call [random.randint(-10, 10)] of the validator for
    type [t], when the validator is entered with generator [s]. *)
Definition risk_adjustment (t : DocumentType) (s : rng) : Z :=
  fst (random_randint (M := Run) (-10) 10
         (skip (draws_before_adjustment t) s)).

(** The check types named by the [if]/[elif] chain of the anomaly loop of
    each validator, with the message the chain appends. *)
Definition anomaly_message (t : DocumentType) (ct : string) : option string :=
  match t with
  | BANK_STATEMENT =>
      if String.eqb ct "Balance Calculation" then
        Some "Balance discrepancy: Opening balance + transactions does not equal closing balance"
      else if String.eqb ct "Transaction Pattern Analysis" then
        Some "Unusual pattern: Multiple large round-sum deposits detected"
      else None
  | PAYSLIP =>
      if String.eqb ct "Employer Verification" then
        Some "Employer not found in registered business database"
      else if String.eqb ct "Tax Calculation" then
        Some "Tax calculation does not match standard rates for income level"
      else if String.eqb ct "Salary Consistency" then
        Some "Gross salary does not match sum of net pay and deductions"
      else None
  | IRP =>
      if String.eqb ct "Security Features" then
        Some "Missing or altered security features detected"
      else if String.eqb ct "Expiration Date" then
        Some "Document appears to be expired or date has been altered"
      else None
  | PPSN =>
      if String.eqb ct "Name Matching" then
        Some "Name on PPSN document does not match name on application"
      else if String.eqb ct "DOB Consistency" then
        Some "Date of birth on PPSN document does not match other provided documents"
      else None
  | TAX_RECORD =>
      if String.eqb ct "Income Consistency" then
        Some "Reported income does not match income on other documents"
      else if String.eqb ct "Tax Calculation" then
        Some "Tax amounts do not align with standard calculation for reported income"
      else if String.eqb ct "Official Stamps/Watermarks" then
        Some "Document lacks proper official authentication markers"
      else None
  end.

(** A failing check whose type has an anomaly message. *)
Definition failing_mapped (t : DocumentType) (c : ValidationCheck) : bool :=
  negb (passed c) &&
  match anomaly_message t (check_type c) with Some _ => true | None => false end.

(** The messages of the failing checks, in the order of the checks. *)
Definition expected_anomalies (t : DocumentType) (cs : list ValidationCheck)
    : list string :=
  flat_map (fun c => if passed c then []
                     else match anomaly_message t (check_type c) with
                          | Some m => [m]
                          | None => []
                          end) cs.

(** The two runs see the same sequence of draws. *)
Definition same_draws (s1 s2 : rng) : Prop :=
  forall i : nat, words s1 (cursor s1 + i) = words s2 (cursor s2 + i).

(** The [i]-th word the run will read, counted from the next one. *)
Definition draw (s : rng) (i : nat) : N := words s (i + cursor s).

(** The check "Balance Calculation" of a result. *)
Definition balance_check (r : ValidationResult) : option ValidationCheck :=
  find (fun c => String.eqb (check_type c) "Balance Calculation") (checks r).

(** The probability of passing of a check whose [passed] flag is drawn:
    [random.choice([True, False])] for bank statements,
    [random.choice([True, True, False])] for the other types. *)
Definition drawn_pass_rate (t : DocumentType) : Q :=
  match t with
  | BANK_STATEMENT => 1 # 2
  | PAYSLIP | IRP | PPSN | TAX_RECORD => 2 # 3
  end.

(* ===================================================================== *)
(** * main.py: what [display_validation_results] computes from a result *)
(* ===================================================================== *)

(** [status_color = 'positive' if result.is_valid else 'negative'] *)
Definition status_color (result : ValidationResult) : string :=
  if is_valid result then "positive" else "negative".

(** [risk_color = 'positive' if result.risk_score < 30 else 'warning' if
    result.risk_score < 70 else 'negative'] *)
Definition risk_color (result : ValidationResult) : string :=
  if risk_score result <? 30 then "positive"
  else if risk_score result <? 70 then "warning"
  else "negative".

(** [if result.anomalies:] the section "Detected Anomalies" is rendered
    when the list is not empty. *)
Definition shows_anomalies (result : ValidationResult) : bool :=
  match anomalies result with
  | [] => false
  | _ :: _ => true
  end.

(* ===================================================================== *)
(** * Tables read off the five validators *)
(* ===================================================================== *)

(** The check types each validator lists, in order. *)
Definition check_names (t : DocumentType) : list string :=
  match t with
  | BANK_STATEMENT =>
      ["Template Verification"; "Logo Verification"; "Account Number Format";
       "Balance Calculation"; "Transaction Pattern Analysis"]
  | PAYSLIP =>
      ["Employer Verification"; "Tax Calculation"; "Salary Consistency";
       "Document Format"]
  | IRP =>
      ["Document Format"; "Security Features"; "Expiration Date";
       "GNIB Number Format"]
  | PPSN =>
      ["PPSN Format"; "Document Format"; "Name Matching"; "DOB Consistency"]
  | TAX_RECORD =>
      ["Document Format"; "Tax Year Verification"; "Income Consistency";
       "Tax Calculation"; "Official Stamps/Watermarks"]
  end.

(** The number of checks whose [passed] flag is drawn. *)
Definition drawn_checks (t : DocumentType) : Z :=
  match t with
  | BANK_STATEMENT | IRP | PPSN => 2
  | PAYSLIP | TAX_RECORD => 3
  end.

(** The recommendation of each validator for a valid document. *)
Definition valid_recommendation (t : DocumentType) : string :=
  match t with
  | BANK_STATEMENT => "Document appears valid - proceed with standard processing"
  | PAYSLIP => "Payslip appears valid - proceed with standard processing"
  | IRP => "IRP appears valid - proceed with standard processing"
  | PPSN => "PPSN document appears valid - proceed with standard processing"
  | TAX_RECORD => "Tax record appears valid - proceed with standard processing"
  end.

(** The first recommendation of each validator for an invalid document. *)
Definition request_recommendation (t : DocumentType) : string :=
  match t with
  | BANK_STATEMENT | PAYSLIP => "Request additional verification from customer"
  | IRP => "Request physical verification of original document"
  | PPSN => "Request additional identification documents"
  | TAX_RECORD => "Request additional verification from tax authority"
  end.

(** The check type each validator tests in its [any(...)], and the
    recommendation it appends when that check failed. *)
Definition escalation_check (t : DocumentType) : string :=
  match t with
  | BANK_STATEMENT => "Balance Calculation"
  | PAYSLIP => "Employer Verification"
  | IRP => "Security Features"
  | PPSN => "Name Matching"
  | TAX_RECORD => "Income Consistency"
  end.

Definition escalation_recommendation (t : DocumentType) : string :=
  match t with
  | BANK_STATEMENT => "Verify transaction history with issuing bank"
  | PAYSLIP => "Verify employer existence through Companies Registration Office"
  | IRP => "Escalate to fraud department for detailed investigation"
  | PPSN => "Verify name change documentation if applicable"
  | TAX_RECORD => "Cross-verify income with payslips and bank statements"
  end.

(** The draws one call of [validate_document] reads: two for each drawn
    check and one for the adjustment; none for an unknown type. *)
Definition draws_read (doc : Document) : nat :=
  if String.eqb (document_type doc) (DocumentType_value BANK_STATEMENT) then 5
  else if String.eqb (document_type doc) (DocumentType_value PAYSLIP) then 7
  else if String.eqb (document_type doc) (DocumentType_value IRP) then 5
  else if String.eqb (document_type doc) (DocumentType_value PPSN) then 5
  else if String.eqb (document_type doc) (DocumentType_value TAX_RECORD) then 7
  else 0.

(** The generator one call of [validate_document] leaves behind. *)
Definition validate_next (class_now : datetime) (doc : Document) (s : rng)
    : rng :=
  snd (validate_document (M := Run) class_now doc s).

(** The lowest and the highest risk score of each type. *)
Definition lowest_risk (t : DocumentType) : Z := spec_base_risk t - 10.

Definition highest_risk (t : DocumentType) : Z :=
  spec_base_risk t + spec_failed_step t * drawn_checks t + 10.

(** Draws under which every drawn check fails and the adjustment is 10. *)
Definition worst_draws_for (t : DocumentType) : rng :=
  match t with
  | BANK_STATEMENT | IRP | PPSN => replay [5; 0; 5; 0; 20]%N
  | PAYSLIP | TAX_RECORD => replay [5; 0; 5; 0; 5; 0; 20]%N
  end.

(** Draws under which every check passes and the adjustment is -10. *)
Definition best_draws : rng := replay []%N.

(** The probability that the result is valid. *)
Definition valid_probability (class_now : datetime) (doc : Document) : Q :=
  Pr (validate_document (M := Expect) class_now doc) is_valid.

(** The mean of the risk score. *)
Definition mean_risk_score (class_now : datetime) (doc : Document) : Q :=
  validate_document (M := Expect) class_now doc
    (fun r => inject_Z (risk_score r)).

(** The text each drawn check shows when [random.random()] exceeds the
    threshold, by position. *)
Definition success_text (t : DocumentType) (j : nat) : option string :=
  match t, j with
  | BANK_STATEMENT, 3%nat =>
      Some "Opening balance + transactions = closing balance"
  | BANK_STATEMENT, 4%nat => Some "Transaction patterns appear normal"
  | PAYSLIP, 0%nat => Some "Employer details match registered business"
  | PAYSLIP, 1%nat => Some "Tax calculations are correct"
  | PAYSLIP, 2%nat =>
      Some "Salary figures are consistent throughout document"
  | IRP, 1%nat => Some "Security features present and valid"
  | IRP, 2%nat => Some "IRP is current and not expired"
  | PPSN, 2%nat => Some "Name on document matches application name"
  | PPSN, 3%nat => Some "Date of birth is consistent with other documents"
  | TAX_RECORD, 2%nat =>
      Some "Income figures are consistent with other documents"
  | TAX_RECORD, 3%nat => Some "Tax calculations appear correct"
  | TAX_RECORD, 4%nat => Some "Official stamps/watermarks verified"
  | _, _ => None
  end.

(** The event "check number [j] of the result has the details [text]". *)
Definition check_shows (text : string) (j : nat) (r : ValidationResult)
    : bool :=
  match nth_error (checks r) j with
  | Some c => String.eqb (details c) text
  | None => false
  end.

(** The number of 53-bit numerators [k] with [k / 2^53 > 0.3] for bank
    statements, [> 0.2] for the other types, over [2^53]. *)
Definition success_rate (t : DocumentType) : Q :=
  match t with
  | BANK_STATEMENT => 6305039478318694 # 9007199254740992
  | PAYSLIP | IRP | PPSN | TAX_RECORD => 7205759403792793 # 9007199254740992
  end.

(* ===================================================================== *)
(** * Facts about runs *)
(* ===================================================================== *)

Lemma Run_randbelow_lt (n : N) (s : rng) :
  n <> 0%N -> (fst (randbelow (M := Run) n s) < n)%N.
Proof. intros Hn. cbn. now apply N.mod_lt. Qed.

Lemma Run_choice_In {A : Type} (x : A) (xs : list A) (s : rng) :
  In (fst (random_choice (M := Run) x xs s)) (x :: xs).
Proof.
  unfold random_choice. cbn [bind ret Run_source Run_bind Run_ret fst].
  set (i := N.to_nat _).
  destruct (Nat.lt_ge_cases i (List.length (x :: xs))) as [Hlt | Hge].
  - now apply nth_In.
  - rewrite nth_overflow by exact Hge. now left.
Qed.

Lemma Run_randint_range (a b : Z) (s : rng) :
  a <= b -> a <= fst (random_randint (M := Run) a b s) <= b.
Proof.
  intros Hab. unfold random_randint.
  cbn [bind ret Run_source Run_bind Run_ret fst].
  assert (Hn : Z.to_N (b - a + 1) <> 0%N) by lia.
  pose proof (Run_randbelow_lt _ s Hn) as Hlt. lia.
Qed.

(** Every operation consumes exactly one word. *)
Lemma Run_choice_next {A : Type} (x : A) (xs : list A) (s : rng) :
  snd (random_choice (M := Run) x xs s) = mk_rng (words s) (S (cursor s)).
Proof. reflexivity. Qed.

Lemma Run_random_next (s : rng) :
  snd (random_random (M := Run) s) = mk_rng (words s) (S (cursor s)).
Proof. reflexivity. Qed.

Lemma Run_randint_next (a b : Z) (s : rng) :
  snd (random_randint (M := Run) a b s) = mk_rng (words s) (S (cursor s)).
Proof. reflexivity. Qed.

(** The value of each operation is a function of the word it reads. *)
Lemma Run_choice_word {A : Type} (x : A) (xs : list A) (s : rng) :
  fst (random_choice (M := Run) x xs s)
  = nth (N.to_nat (draw s 0 mod N.of_nat (List.length (x :: xs)))) (x :: xs) x.
Proof. reflexivity. Qed.

Lemma Run_random_word (s : rng) :
  fst (random_random (M := Run) s)
  = random_float (draw s 0 mod 2 ^ random_bits).
Proof. reflexivity. Qed.

Lemma Run_randint_word (a b : Z) (s : rng) :
  fst (random_randint (M := Run) a b s)
  = a + Z.of_N (draw s 0 mod Z.to_N (b - a + 1)).
Proof. reflexivity. Qed.

Lemma same_draws_at (s1 s2 : rng) (k : nat) :
  same_draws s1 s2 ->
  draw (mk_rng (words s1) (k + cursor s1)) 0
  = draw (mk_rng (words s2) (k + cursor s2)) 0.
Proof.
  intros Hsame. unfold draw. cbn [words cursor Nat.add].
  rewrite (Nat.add_comm k (cursor s1)), (Nat.add_comm k (cursor s2)).
  apply Hsame.
Qed.

(** [random.random() > 0.3] and [random.random() > 0.2], on the numerator
    of the float drawn. *)
Lemma float_gt_0_3 (k : N) :
  float_gt (random_float k) float_0_3 = (2702159776422298 <=? k)%N.
Proof.
  unfold float_gt, random_float, float_0_3, random_bits. cbn [fl_num fl_exp].
  change (2 ^ 53)%N with 9007199254740992%N.
  change (2 ^ 54)%N with 18014398509481984%N.
  destruct (N.ltb_spec (5404319552844595 * 9007199254740992)
                       (k * 18014398509481984));
    destruct (N.leb_spec 2702159776422298 k); try reflexivity; lia.
Qed.

Lemma float_gt_0_2 (k : N) :
  float_gt (random_float k) float_0_2 = (1801439850948199 <=? k)%N.
Proof.
  unfold float_gt, random_float, float_0_2, random_bits. cbn [fl_num fl_exp].
  change (2 ^ 53)%N with 9007199254740992%N.
  change (2 ^ 54)%N with 18014398509481984%N.
  destruct (N.ltb_spec (3602879701896397 * 9007199254740992)
                       (k * 18014398509481984));
    destruct (N.leb_spec 1801439850948199 k); try reflexivity; lia.
Qed.

Lemma choice_of_two (w : N) :
  nth (N.to_nat (w mod 2)) [true; false] true = (w mod 2 =? 0)%N.
Proof.
  assert (Hlt : (w mod 2 < 2)%N) by (apply N.mod_lt; discriminate).
  destruct (w mod 2)%N as [ | [ p | p | ] ]; try reflexivity; lia.
Qed.

Lemma clamp_risk_range (r : Z) : 0 <= clamp_risk r <= 100.
Proof. unfold clamp_risk. lia. Qed.

(** The five comparisons of the dispatch, for a document of unknown type. *)
Lemma unknown_type_tests (ty : string) :
  known_type ty = false ->
  String.eqb ty (DocumentType_value BANK_STATEMENT) = false /\
  String.eqb ty (DocumentType_value PAYSLIP) = false /\
  String.eqb ty (DocumentType_value IRP) = false /\
  String.eqb ty (DocumentType_value PPSN) = false /\
  String.eqb ty (DocumentType_value TAX_RECORD) = false.
Proof.
  unfold known_type, all_DocumentType. cbn [existsb]. intros Hk.
  repeat match type of Hk with
         | (_ || _)%bool = false =>
             apply orb_false_elim in Hk; destruct Hk as [? Hk]
         end.
  auto.
Qed.

(** The dispatch, for a document of a known type. *)
Lemma validate_document_known {M : Type -> Type} `{RandomSource M}
    (class_now : datetime) (t : DocumentType) (doc : Document) :
  document_type doc = DocumentType_value t ->
  validate_document class_now doc
  = match t with
    | BANK_STATEMENT => _validate_bank_statement class_now doc
    | PAYSLIP => _validate_payslip class_now doc
    | IRP => _validate_irp class_now doc
    | PPSN => _validate_ppsn class_now doc
    | TAX_RECORD => _validate_tax_record class_now doc
    end.
Proof.
  intros Ht. unfold validate_document. rewrite Ht.
  destruct t; reflexivity.
Qed.

(** Splits a goal about [validate] into the six branches of the dispatch. *)
Ltac dispatch doc :=
  unfold validate, validate_document;
  destruct (String.eqb (document_type doc) (DocumentType_value BANK_STATEMENT));
  [ | destruct (String.eqb (document_type doc) (DocumentType_value PAYSLIP));
      [ | destruct (String.eqb (document_type doc) (DocumentType_value IRP));
          [ | destruct (String.eqb (document_type doc) (DocumentType_value PPSN));
              [ | destruct (String.eqb (document_type doc)
                                       (DocumentType_value TAX_RECORD)) ] ] ] ].

(** Exposes the record a validator returns, keeping each draw as a term
    [fst (random_... s)]. *)
Ltac expose :=
  cbv beta iota zeta delta
    [_validate_bank_statement _validate_payslip _validate_irp _validate_ppsn
     _validate_tax_record new_ValidationResult];
  cbn [bind ret Run_source];
  unfold Run_bind, Run_ret;
  cbn [fst snd].

(** Rewrites the generator after each draw to [mk_rng words position]. *)
Ltac track_cursor :=
  rewrite ?Run_choice_next, ?Run_random_next, ?Run_randint_next;
  cbn [words cursor].

(** Case analysis on the outcome of every [random.choice] over booleans. *)
Ltac split_choices :=
  repeat match goal with
         | |- context [fst (@random_choice Run _ bool ?x ?xs ?s)] =>
             destruct (fst (@random_choice Run _ bool x xs s))
         end.

(** Names the outcome of [random.randint(-10, 10)] and records its range. *)
Ltac name_adjustment adj Hadj :=
  match goal with
  | |- context [fst (random_randint (M := Run) (-10) 10 ?s)] =>
      assert (Hadj : -10 <= fst (random_randint (M := Run) (-10) 10 s) <= 10)
        by (apply Run_randint_range; lia);
      generalize dependent (fst (random_randint (M := Run) (-10) 10 s));
      intros adj Hadj
  end.

(** Replaces the text of each drawn [details] by a variable. *)
Ltac forget_details :=
  repeat match goal with
         | |- context [if float_gt ?x ?y then ?a else ?b] =>
             generalize (if float_gt x y then a else b); intro
         end.

(** Four or five checks, by type. *)
Lemma checks_length (class_now : datetime) (t : DocumentType) (doc : Document)
    (s : rng) :
  document_type doc = DocumentType_value t ->
  List.length (checks (validate class_now doc s))
  = match t with
    | BANK_STATEMENT | TAX_RECORD => 5%nat
    | PAYSLIP | IRP | PPSN => 4%nat
    end.
Proof.
  intros Ht. unfold validate.
  rewrite (validate_document_known class_now t doc Ht).
  destruct t; expose; reflexivity.
Qed.

(* ===================================================================== *)
(** * Facts about expectations *)
(* ===================================================================== *)

Lemma sum_below_succ (n : N) (f : N -> Q) :
  sum_below (N.succ n) f = (sum_below n f + f n)%Q.
Proof. unfold sum_below. now rewrite N.peano_rect_succ. Qed.

Lemma sum_below_const (n : N) (c : Q) :
  (sum_below n (fun _ => c) == inject_Z (Z.of_N n) * c)%Q.
Proof.
  induction n as [ | n IH ] using N.peano_ind.
  - cbn. ring.
  - rewrite sum_below_succ, IH, N2Z.inj_succ.
    unfold Z.succ. rewrite inject_Z_plus. ring.
Qed.

(** The mean of a constant payoff is the constant. *)
Lemma Expect_randbelow_const (n : N) (c : Q) :
  n <> 0%N -> (Expect_randbelow n (fun _ => c) == c)%Q.
Proof.
  intros Hn. unfold Expect_randbelow. rewrite sum_below_const.
  field. intros Hzero.
  assert (Heq : (inject_Z (Z.of_N n) == inject_Z 0)%Q) by exact Hzero.
  apply (proj1 (inject_Z_injective _ _)) in Heq. lia.
Qed.

Lemma Expect_randbelow_2 (f : N -> Q) :
  Expect_randbelow 2 f = ((0 + f 0%N + f 1%N) / inject_Z 2)%Q.
Proof. reflexivity. Qed.

Lemma Expect_randbelow_3 (f : N -> Q) :
  Expect_randbelow 3 f = ((0 + f 0%N + f 1%N + f 2%N) / inject_Z 3)%Q.
Proof. reflexivity. Qed.

Ltac nonzero := let H := fresh in intro H; vm_compute in H; discriminate H.

(** Exposes the nested means that make up the probability of an event of
    a validator.  The bound [2 ^ 53] of [random.random] becomes a variable:
    the events considered do not depend on that draw. *)
Ltac expect_unfold :=
  unfold pass_probability, Pr;
  cbv beta iota zeta delta
    [_validate_bank_statement _validate_payslip _validate_irp _validate_ppsn
     _validate_tax_record new_ValidationResult
     random_choice random_random random_randint];
  cbn [bind ret randbelow Expect_source];
  unfold Expect_bind, Expect_ret;
  cbn [check_passes checks nth_error passed
       List.length N.of_nat Pos.of_succ_nat Pos.succ];
  let big := fresh "big" in
  let Hbig := fresh "Hbig" in
  assert (Hbig : (2 ^ random_bits)%N <> 0%N) by nonzero;
  generalize dependent (2 ^ random_bits)%N; intros big Hbig.

(** Removes the draws the event does not depend on and splits the others
    into their two or three outcomes. *)
Ltac expect_steps :=
  repeat first
    [ rewrite Expect_randbelow_const by (assumption || nonzero)
    | rewrite Expect_randbelow_2; cbv beta
    | rewrite Expect_randbelow_3; cbv beta ].

(** The probability of passing of each check of a document of known type:
    1 for the checks built with [passed=True], [drawn_pass_rate] for the
    others. *)
Lemma pass_probability_known
    (class_now : datetime) (t : DocumentType) (doc : Document) (j : nat) :
  document_type doc = DocumentType_value t ->
  (j < 5)%nat ->
  (pass_probability class_now doc j ==
   match t, j with
   | BANK_STATEMENT, (0 | 1 | 2)%nat => 1
   | BANK_STATEMENT, (3 | 4)%nat => drawn_pass_rate BANK_STATEMENT
   | PAYSLIP, (0 | 1 | 2)%nat => drawn_pass_rate PAYSLIP
   | PAYSLIP, 3%nat => 1
   | IRP, (0 | 3)%nat => 1
   | IRP, (1 | 2)%nat => drawn_pass_rate IRP
   | PPSN, (0 | 1)%nat => 1
   | PPSN, (2 | 3)%nat => drawn_pass_rate PPSN
   | TAX_RECORD, (0 | 1)%nat => 1
   | TAX_RECORD, (2 | 3 | 4)%nat => drawn_pass_rate TAX_RECORD
   | _, _ => 0
   end)%Q.
Proof.
  intros Ht Hj. unfold pass_probability.
  rewrite (validate_document_known class_now t doc Ht).
  destruct t; do 5 (try destruct j as [ | j]); try lia;
    expect_unfold; expect_steps; vm_compute; reflexivity.
Qed.

(** [random.randint(-10, 10)] gives each of its 21 values with the same
    probability. *)
Lemma randint_uniform (a : Z) :
  -10 <= a <= 10 ->
  (Pr (random_randint (M := Expect) (-10) 10) (Z.eqb a) == 1 # 21)%Q.
Proof.
  intros Ha.
  assert (Hn : exists n : nat, (n < 21)%nat /\ a = Z.of_nat n - 10).
  { exists (Z.to_nat (a + 10)). split; lia. }
  destruct Hn as (n & Hn & ->).
  do 21 (destruct n as [ | n]; [vm_compute; reflexivity | ]).
  lia.
Qed.

(* ===================================================================== *)
(** * Properties of [validate_document] *)
(* ===================================================================== *)

(** C1.  For every document, of a known type or not, and every sequence of
    draws, [is_valid] of the result of [validate_document] is the
    conjunction of the [passed] flags of its [checks]. *)
Theorem is_valid_is_all_passed (class_now : datetime) (doc : Document) (s : rng) :
  is_valid (validate class_now doc s)
  = forallb passed (checks (validate class_now doc s)).
Proof.
  dispatch doc; expose; reflexivity.
Qed.

(** C2.  For every document and every sequence of draws, [risk_score] of the
    result of [validate_document] is an integer between 0 and 100
    inclusive. *)
Theorem risk_score_in_range (class_now : datetime) (doc : Document) (s : rng) :
  0 <= risk_score (validate class_now doc s) <= 100.
Proof.
  dispatch doc; expose; cbn [risk_score];
    try apply clamp_risk_range; lia.
Qed.

(** C3.  For a document whose type is none of the five known ones,
    [validate_document] returns (it is a total function: nothing is raised)
    the fixed result with [is_valid = false], [risk_score = 100], the single
    check "Document Type" with [passed = false], one anomaly and one
    recommendation. *)
Theorem unknown_type_result (class_now : datetime) (doc : Document) (s : rng) :
  known_type (document_type doc) = false ->
  let r := validate class_now doc s in
  is_valid r = false /\
  risk_score r = 100 /\
  (exists c, checks r = [c] /\ check_type c = "Document Type"
             /\ passed c = false) /\
  List.length (anomalies r) = 1%nat /\
  List.length (recommendations r) = 1%nat /\
  r = mk_ValidationResult doc false 100
        [mk_ValidationCheck "Document Type" false "Unknown document type"]
        ["Unknown document type"]
        ["Please select a valid document type"]
        class_now.
Proof.
  intros Hk. apply unknown_type_tests in Hk.
  destruct Hk as (H1 & H2 & H3 & H4 & H5).
  unfold validate, validate_document.
  rewrite H1, H2, H3, H4, H5.
  cbn. repeat split; try reflexivity.
  eexists. repeat split; reflexivity.
Qed.

Lemma unknown_type_result_witness :
  let r := validate 1700000000000000 (sample_document "passport")
                    (replay [5; 6; 7]%N) in
  is_valid r = false /\
  risk_score r = 100 /\
  (exists c, checks r = [c] /\ check_type c = "Document Type"
             /\ passed c = false) /\
  List.length (anomalies r) = 1%nat /\
  List.length (recommendations r) = 1%nat /\
  r = mk_ValidationResult (sample_document "passport") false 100
        [mk_ValidationCheck "Document Type" false "Unknown document type"]
        ["Unknown document type"]
        ["Please select a valid document type"]
        1700000000000000.
Proof.
  apply (unknown_type_result 1700000000000000 (sample_document "passport")
                             (replay [5; 6; 7]%N)).
  reflexivity.
Defined.

(** C4.  For every known type and every sequence of draws, [risk_score] is
    the clamp to [0, 100] of the base of the type (10 to 25), plus the step
    of the type (20 to 25) for each check with [passed = false], plus the
    outcome of the one call [random.randint(-10, 10)], which lies between
    -10 and 10 and takes each of these 21 values with the same
    probability. *)
Theorem risk_score_formula
    (class_now : datetime) (t : DocumentType) (doc : Document) (s : rng) :
  document_type doc = DocumentType_value t ->
  let r := validate class_now doc s in
  risk_score r
  = Z.max 0 (Z.min 100 (spec_base_risk t
                        + spec_failed_step t * failed_count (checks r)
                        + risk_adjustment t s)) /\
  -10 <= risk_adjustment t s <= 10 /\
  (forall a, -10 <= a <= 10 ->
             (Pr (random_randint (M := Expect) (-10) 10) (Z.eqb a) == 1 # 21)%Q) /\
  10 <= spec_base_risk t <= 25 /\
  20 <= spec_failed_step t <= 25.
Proof.
  intros Ht. cbv zeta. unfold validate.
  rewrite (validate_document_known class_now t doc Ht).
  unfold risk_adjustment, skip.
  destruct t; expose; track_cursor;
    cbn [draws_before_adjustment Nat.add spec_base_risk spec_failed_step];
    name_adjustment adj Hadj; split_choices;
    (split; [reflexivity | ]);
    (split; [lia | ]);
    (split; [exact randint_uniform | lia]).
Qed.

Lemma risk_score_formula_witness :
  let t := TAX_RECORD in
  let s := replay [2; 0; 0; 0; 2; 0; 20]%N in
  let r := validate 0 (sample_document "tax_record") s in
  risk_score r
  = Z.max 0 (Z.min 100 (spec_base_risk t
                        + spec_failed_step t * failed_count (checks r)
                        + risk_adjustment t s)) /\
  -10 <= risk_adjustment t s <= 10 /\
  (forall a, -10 <= a <= 10 ->
             (Pr (random_randint (M := Expect) (-10) 10) (Z.eqb a) == 1 # 21)%Q) /\
  10 <= spec_base_risk t <= 25 /\
  20 <= spec_failed_step t <= 25.
Proof.
  apply (risk_score_formula 0 TAX_RECORD (sample_document "tax_record")
                            (replay [2; 0; 0; 0; 2; 0; 20]%N)).
  reflexivity.
Defined.

(** C5, as stated, fails.  The check "Balance Calculation" of a bank
    statement can fail, and it passes with probability 1/2, which is not
    between 70% and 90%. *)
Lemma balance_calculation_pass_rate :
  let doc := sample_document "bank_statement" in
  (exists s c, nth_error (checks (validate 0 doc s)) 3 = Some c /\
               check_type c = "Balance Calculation" /\ passed c = false) /\
  (pass_probability 0%Z doc 3 == 1 # 2)%Q /\
  ~ (7 # 10 <= pass_probability 0%Z doc 3 <= 9 # 10)%Q.
Proof.
  cbv zeta.
  assert (Hp : (pass_probability 0%Z (sample_document "bank_statement") 3
                == 1 # 2)%Q).
  { apply (pass_probability_known 0 BANK_STATEMENT); [reflexivity | lia]. }
  split; [ | split].
  - exists (replay [1]%N). eexists. vm_compute. repeat split.
  - exact Hp.
  - rewrite Hp. intros [Hlow _]. vm_compute in Hlow. apply Hlow. reflexivity.
Qed.

(** C5, as the code has it.  Each check of a document of known type is
    either built with [passed=True], and then passes for every sequence of
    draws (probability 1), or has its flag drawn by [random.choice]; a drawn
    flag can be false and is true with probability exactly 1/2 for bank
    statements ([random.choice([True, False])]) and 2/3 for the other four
    types ([random.choice([True, True, False])]). *)
Theorem check_pass_rates
    (class_now : datetime) (t : DocumentType) (doc : Document) (s0 : rng)
    (j : nat) :
  document_type doc = DocumentType_value t ->
  (j < List.length (checks (validate class_now doc s0)))%nat ->
  ((pass_probability class_now doc j == 1)%Q /\
   forall s : rng, check_passes j (validate class_now doc s) = true)
  \/
  ((pass_probability class_now doc j == drawn_pass_rate t)%Q /\
   exists s : rng, check_passes j (validate class_now doc s) = false).
Proof.
  intros Ht Hj.
  rewrite (checks_length class_now t doc _ Ht) in Hj.
  assert (Hj5 : (j < 5)%nat) by (destruct t; lia).
  pose proof (pass_probability_known class_now t doc j Ht Hj5) as Hp.
  unfold validate.
  rewrite (validate_document_known (M := Run) class_now t doc Ht).
  destruct t; do 5 (try destruct j as [ | j]); try lia;
    cbv beta iota in Hp;
    first
      [ left; split; [exact Hp | intros s; expose; reflexivity]
      | right; split;
        [exact Hp
        | exists (replay [5; 0; 5; 0; 5; 0; 0]%N); vm_compute; reflexivity] ].
Qed.

Lemma check_pass_rates_witness :
  let doc := sample_document "tax_record" in
  ((pass_probability 0%Z doc 4 == 1)%Q /\
   forall s : rng, check_passes 4 (validate 0 doc s) = true)
  \/
  ((pass_probability 0%Z doc 4 == drawn_pass_rate TAX_RECORD)%Q /\
   exists s : rng, check_passes 4 (validate 0 doc s) = false).
Proof.
  apply (check_pass_rates 0 TAX_RECORD (sample_document "tax_record")
                          (replay []) 4).
  - reflexivity.
  - vm_compute. lia.
Defined.

(** C6.  Two calls of [validate_document] on the same document that see the
    same sequence of draws (the same seed) return the same result: the same
    [is_valid], [risk_score], [checks], [anomalies] and [recommendations],
    and every other field. *)
Theorem same_seed_same_result
    (class_now : datetime) (doc : Document) (s1 s2 : rng) :
  same_draws s1 s2 ->
  validate class_now doc s1 = validate class_now doc s2.
Proof.
  intros Hsame.
  pose proof (same_draws_at s1 s2 0 Hsame) as H0.
  pose proof (same_draws_at s1 s2 1 Hsame) as H1.
  pose proof (same_draws_at s1 s2 2 Hsame) as H2.
  pose proof (same_draws_at s1 s2 3 Hsame) as H3.
  pose proof (same_draws_at s1 s2 4 Hsame) as H4.
  pose proof (same_draws_at s1 s2 5 Hsame) as H5.
  pose proof (same_draws_at s1 s2 6 Hsame) as H6.
  cbn [Nat.add] in H0, H1, H2, H3, H4, H5, H6.
  destruct s1 as [w1 c1], s2 as [w2 c2]. cbn [words cursor] in *.
  dispatch doc; expose; track_cursor;
    rewrite ?Run_choice_word, ?Run_random_word, ?Run_randint_word;
    rewrite ?H0, ?H1, ?H2, ?H3, ?H4, ?H5, ?H6; reflexivity.
Qed.

Lemma same_seed_same_result_witness :
  validate 0 (sample_document "irp") (seeded (fun i => N.of_nat (i + 3)))
  = validate 0 (sample_document "irp") (mk_rng (fun i => N.of_nat i) 3).
Proof.
  apply (same_seed_same_result 0 (sample_document "irp")
           (seeded (fun i => N.of_nat (i + 3)))
           (mk_rng (fun i => N.of_nat i) 3)).
  intro i. simpl. rewrite Nat.add_comm. reflexivity.
Defined.

(** C7.  For a bank statement whose five checks all pass, [risk_score] lies
    between [base - 10] and [base + 10] with [base = 10], that is between 0
    and 20, for every sequence of draws. *)
Theorem bank_statement_all_passed_risk
    (class_now : datetime) (doc : Document) (s : rng) :
  document_type doc = DocumentType_value BANK_STATEMENT ->
  forallb passed (checks (validate class_now doc s)) = true ->
  List.length (checks (validate class_now doc s)) = 5%nat /\
  spec_base_risk BANK_STATEMENT - 10
  <= risk_score (validate class_now doc s)
  <= spec_base_risk BANK_STATEMENT + 10 /\
  0 <= risk_score (validate class_now doc s) <= 20.
Proof.
  intros Ht. unfold validate.
  rewrite (validate_document_known class_now BANK_STATEMENT doc Ht).
  expose. name_adjustment adj Hadj. forget_details. split_choices;
    cbn -[Z.add Z.sub Z.max Z.min]; intros Hall; try discriminate Hall.
  unfold clamp_risk. repeat split; lia.
Qed.

Lemma bank_statement_all_passed_risk_witness :
  let r := validate 0 (sample_document "bank_statement")
                    (replay [0; 0; 0; 0; 17]%N) in
  List.length (checks r) = 5%nat /\
  spec_base_risk BANK_STATEMENT - 10 <= risk_score r
  <= spec_base_risk BANK_STATEMENT + 10 /\
  0 <= risk_score r <= 20.
Proof.
  apply (bank_statement_all_passed_risk 0 (sample_document "bank_statement")
                                        (replay [0; 0; 0; 0; 17]%N));
    reflexivity.
Defined.

(** C8.  For every known type and every sequence of draws, [anomalies] has
    at most as many entries as there are failing checks whose type has an
    anomaly message (it holds the message of each such check, in order),
    and [recommendations] has exactly one entry when [is_valid] is true and
    at least one when it is false. *)
Theorem anomalies_and_recommendations
    (class_now : datetime) (t : DocumentType) (doc : Document) (s : rng) :
  document_type doc = DocumentType_value t ->
  let r := validate class_now doc s in
  (List.length (anomalies r)
   <= List.length (filter (failing_mapped t) (checks r)))%nat /\
  anomalies r = expected_anomalies t (checks r) /\
  (is_valid r = true -> List.length (recommendations r) = 1%nat) /\
  (is_valid r = false -> (1 <= List.length (recommendations r))%nat).
Proof.
  intros Ht. cbv zeta. unfold validate.
  rewrite (validate_document_known class_now t doc Ht).
  destruct t; expose; forget_details; split_choices; cbn;
    repeat split; intros; try discriminate; try reflexivity; lia.
Qed.

Lemma anomalies_and_recommendations_witness :
  let t := PAYSLIP in
  let r := validate 0 (sample_document "payslip")
                    (replay [2; 0; 0; 0; 2; 0; 3]%N) in
  (List.length (anomalies r)
   <= List.length (filter (failing_mapped t) (checks r)))%nat /\
  anomalies r = expected_anomalies t (checks r) /\
  (is_valid r = true -> List.length (recommendations r) = 1%nat) /\
  (is_valid r = false -> (1 <= List.length (recommendations r))%nat).
Proof.
  apply (anomalies_and_recommendations 0 PAYSLIP (sample_document "payslip")
           (replay [2; 0; 0; 0; 2; 0; 3]%N)).
  reflexivity.
Defined.

(** C9.  Every result of [validate_document] carries the same
    [validation_date]: the default of the model class, evaluated once when
    the class was defined.  It depends neither on the document nor on the
    draws, and no code path of the validator sets it. *)
Theorem validation_date_is_class_default
    (class_now : datetime) (doc1 doc2 : Document) (s1 s2 : rng) :
  validation_date (validate class_now doc1 s1) = class_now /\
  validation_date (validate class_now doc1 s1)
  = validation_date (validate class_now doc2 s2).
Proof.
  assert (Hdate : forall doc s,
             validation_date (validate class_now doc s) = class_now)
    by (intros doc s; dispatch doc; expose; reflexivity).
  now rewrite !Hdate.
Qed.

(** C10.  In the validator for bank statements the [passed] flag of the
    check "Balance Calculation" and its [details] come from two different
    draws: the flag from the first, the text from the second.  So some
    sequence of draws gives [passed = false] with the success text
    "Opening balance + transactions = closing balance", and another gives
    [passed = true] with the failure text. *)
Theorem passed_and_details_drawn_apart
    (class_now : datetime) (doc : Document) :
  document_type doc = DocumentType_value BANK_STATEMENT ->
  (forall s : rng,
      exists c, balance_check (validate class_now doc s) = Some c /\
                passed c = (draw s 0 mod 2 =? 0)%N /\
                details c =
                  if (2702159776422298 <=? draw s 1 mod 2 ^ 53)%N
                  then "Opening balance + transactions = closing balance"
                  else "Discrepancy detected in balance calculation") /\
  (exists s c, balance_check (validate class_now doc s) = Some c /\
               passed c = false /\
               details c = "Opening balance + transactions = closing balance") /\
  (exists s c, balance_check (validate class_now doc s) = Some c /\
               passed c = true /\
               details c = "Discrepancy detected in balance calculation").
Proof.
  intros Ht.
  assert (Hgen : forall s : rng,
      exists c, balance_check (validate class_now doc s) = Some c /\
                passed c = (draw s 0 mod 2 =? 0)%N /\
                details c =
                  if (2702159776422298 <=? draw s 1 mod 2 ^ 53)%N
                  then "Opening balance + transactions = closing balance"
                  else "Discrepancy detected in balance calculation").
  { intros s. unfold validate.
    rewrite (validate_document_known class_now BANK_STATEMENT doc Ht).
    expose. track_cursor. unfold balance_check.
    cbn [checks find check_type String.eqb Ascii.eqb Bool.eqb andb].
    eexists. split; [reflexivity | ]. cbn [passed details].
    rewrite Run_choice_word, Run_random_word, float_gt_0_3.
    split; [apply choice_of_two | reflexivity]. }
  split; [exact Hgen | split].
  - destruct (Hgen (replay [1; 9007199254740991]%N)) as (c & Hc & Hp & Hd).
    exists (replay [1; 9007199254740991]%N), c. auto.
  - destruct (Hgen (replay [0; 0]%N)) as (c & Hc & Hp & Hd).
    exists (replay [0; 0]%N), c. auto.
Qed.

Lemma passed_and_details_drawn_apart_witness :
  let doc := sample_document "bank_statement" in
  (forall s : rng,
      exists c, balance_check (validate 0 doc s) = Some c /\
                passed c = (draw s 0 mod 2 =? 0)%N /\
                details c =
                  if (2702159776422298 <=? draw s 1 mod 2 ^ 53)%N
                  then "Opening balance + transactions = closing balance"
                  else "Discrepancy detected in balance calculation") /\
  (exists s c, balance_check (validate 0 doc s) = Some c /\
               passed c = false /\
               details c = "Opening balance + transactions = closing balance") /\
  (exists s c, balance_check (validate 0 doc s) = Some c /\
               passed c = true /\
               details c = "Discrepancy detected in balance calculation").
Proof.
  apply (passed_and_details_drawn_apart 0 (sample_document "bank_statement")).
  reflexivity.
Defined.

(* ===================================================================== *)
(** * Further facts about runs *)
(* ===================================================================== *)

Lemma failed_count_nonneg (cs : list ValidationCheck) : 0 <= failed_count cs.
Proof. unfold failed_count. lia. Qed.

Lemma all_passed_iff_none_failed (cs : list ValidationCheck) :
  forallb passed cs = true <-> failed_count cs = 0.
Proof.
  unfold failed_count. induction cs as [ | c cs IH]; cbn [forallb filter].
  - split; reflexivity.
  - destruct (passed c); cbn [negb andb List.length].
    + exact IH.
    + split; [discriminate | lia].
Qed.

Lemma known_type_value (ty : string) :
  known_type ty = true -> exists t, ty = DocumentType_value t.
Proof.
  unfold known_type, all_DocumentType. cbn [existsb]. intros Hk.
  repeat match type of Hk with
         | (_ || _)%bool = true =>
             apply orb_true_iff in Hk; destruct Hk as [Hk | Hk]
         end;
    try discriminate Hk;
    apply String.eqb_eq in Hk; eauto.
Qed.

(** What one case analysis over the draws of each validator shows about
    the result for a document of known type. *)
Lemma known_result_facts
    (class_now : datetime) (t : DocumentType) (doc : Document) (s : rng) :
  document_type doc = DocumentType_value t ->
  let r := validate class_now doc s in
  risk_score r
  = spec_base_risk t + spec_failed_step t * failed_count (checks r)
    + risk_adjustment t s /\
  -10 <= risk_adjustment t s <= 10 /\
  failed_count (checks r) <= drawn_checks t /\
  is_valid r = forallb passed (checks r) /\
  map check_type (checks r) = check_names t /\
  (anomalies r = [] <-> is_valid r = true) /\
  Z.of_nat (List.length (anomalies r)) = failed_count (checks r) /\
  recommendations r
  = (if is_valid r then [valid_recommendation t]
     else request_recommendation t
          :: (if any_failed (escalation_check t) (checks r)
              then [escalation_recommendation t] else [])).
Proof.
  intros Ht. cbv zeta. unfold validate.
  rewrite (validate_document_known class_now t doc Ht).
  unfold risk_adjustment, skip.
  destruct t; expose; track_cursor;
    cbn [draws_before_adjustment Nat.add];
    name_adjustment adj Hadj; forget_details; split_choices;
    cbn -[Z.add Z.mul Z.sub Z.max Z.min Z.le];
    unfold clamp_risk;
    (repeat split; try reflexivity; try discriminate; try lia).
Qed.

(** The result for a document of unknown type. *)
Lemma unknown_type_run (class_now : datetime) (doc : Document) (s : rng) :
  known_type (document_type doc) = false ->
  validate_document (M := Run) class_now doc s
  = (mk_ValidationResult doc false 100
       [mk_ValidationCheck "Document Type" false "Unknown document type"]
       ["Unknown document type"]
       ["Please select a valid document type"]
       class_now, s).
Proof.
  intros Hk. apply unknown_type_tests in Hk.
  destruct Hk as (H1 & H2 & H3 & H4 & H5).
  unfold validate_document. rewrite H1, H2, H3, H4, H5. reflexivity.
Qed.

(* ===================================================================== *)
(** * Further facts about expectations *)
(* ===================================================================== *)

Lemma sum_below_step_min (n t : N) (f : N -> Q) :
  (forall k, f k == if (t <=? k)%N then f t else f 0%N)%Q ->
  (sum_below n f ==
   inject_Z (Z.of_N (n - N.min n t)) * f t
   + inject_Z (Z.of_N (N.min n t)) * f 0%N)%Q.
Proof.
  intros Hf. induction n as [ | n IH] using N.peano_ind.
  - replace (N.min 0 t) with 0%N by lia.
    change (sum_below 0 f) with 0%Q. cbn [N.sub Z.of_N]. ring.
  - rewrite sum_below_succ, IH, (Hf n).
    destruct (N.leb_spec t n) as [Hle | Hlt].
    + replace (N.min (N.succ n) t) with t by lia.
      replace (N.min n t) with t by lia.
      replace (Z.of_N (N.succ n - t)) with (Z.of_N (n - t) + 1) by lia.
      rewrite inject_Z_plus. ring.
    + replace (N.min (N.succ n) t) with (N.succ n) by lia.
      replace (N.min n t) with n by lia.
      replace (N.succ n - N.succ n)%N with 0%N by lia.
      replace (n - n)%N with 0%N by lia.
      rewrite N2Z.inj_succ. unfold Z.succ. rewrite inject_Z_plus. ring.
Qed.

(** The mean of a payoff that takes one value below [t] and another from
    [t] on. *)
Lemma Expect_randbelow_step (n t : N) (f : N -> Q) :
  (t <= n)%N -> n <> 0%N ->
  (forall k, f k == if (t <=? k)%N then f t else f 0%N)%Q ->
  (Expect_randbelow n f ==
   (inject_Z (Z.of_N (n - t)) * f t + inject_Z (Z.of_N t) * f 0%N)
   / inject_Z (Z.of_N n))%Q.
Proof.
  intros Hle Hn Hf. unfold Expect_randbelow.
  rewrite (sum_below_step_min n t f Hf).
  replace (N.min n t) with t by lia. reflexivity.
Qed.

(** Exposes the nested means of a payoff on the result.  The bound
    [2 ^ 53] of [random.random] becomes the variable [big], so that no
    step can start summing over it. *)
Ltac expect_open T :=
  unfold Pr;
  cbv beta iota zeta delta
    [_validate_bank_statement _validate_payslip _validate_irp _validate_ppsn
     _validate_tax_record new_ValidationResult
     random_choice random_random random_randint];
  cbn [bind ret randbelow Expect_source];
  unfold Expect_bind, Expect_ret;
  cbn [is_valid risk_score all_passed forallb andb add_failed fold_left negb
       check_passes check_shows checks nth_error passed details
       List.length N.of_nat Pos.of_succ_nat Pos.succ];
  change (Z.to_N (10 - -10 + 1)) with 21%N;
  assert ((2 ^ random_bits)%N <> 0%N) by nonzero;
  assert (T <= 2 ^ random_bits)%N by (vm_compute; discriminate).

(** A payoff read under [random.random() > threshold] takes one value from
    the numerator [T] on and another below it. *)
Ltac step_side T :=
  let k := fresh "k" in
  intro k; cbv beta;
  rewrite ?float_gt_0_3, ?float_gt_0_2;
  rewrite (N.leb_refl T);
  change (T <=? 0)%N with false;
  destruct (T <=? k)%N; cbv iota;
  repeat rewrite Expect_randbelow_const by (assumption || nonzero);
  reflexivity.

Ltac step_at T :=
  match goal with
  | Hle : (T <= ?b)%N, Hnz : ?b <> 0%N |- context [Expect_randbelow ?b ?F] =>
      rewrite (Expect_randbelow_step b T F Hle Hnz ltac:(step_side T));
      cbv beta
  end.

(** Evaluates the nested means: the draws the payoff ignores drop out, a
    choice splits into its outcomes, a threshold draw into its two sides;
    what is left are sums over at most 21 values. *)
Ltac expect_eval T :=
  expect_open T;
  let big := fresh "big" in
  let Ebig := fresh "Ebig" in
  remember (2 ^ random_bits)%N as big eqn:Ebig;
  repeat first
    [ rewrite Expect_randbelow_const by (assumption || nonzero)
    | rewrite Expect_randbelow_2; cbv beta
    | rewrite Expect_randbelow_3; cbv beta
    | step_at T ];
  lazymatch goal with
  | |- context [Expect_randbelow big] =>
      fail "a mean over random.random is left"
  | |- _ => idtac
  end;
  subst big; vm_compute; reflexivity.

(* ===================================================================== *)
(** * Further properties of [validate_document] *)
(* ===================================================================== *)

(** X1.  The clamp never changes a score.  For every known type and every
    sequence of draws, base + step * failed checks + adjustment already
    lies between 0 and 100, and [risk_score] is exactly that sum. *)
Theorem clamp_never_applies
    (class_now : datetime) (t : DocumentType) (doc : Document) (s : rng) :
  document_type doc = DocumentType_value t ->
  let r := validate class_now doc s in
  let raw := spec_base_risk t
             + spec_failed_step t * failed_count (checks r)
             + risk_adjustment t s in
  0 <= raw <= 100 /\ risk_score r = raw.
Proof.
  intros Ht.
  destruct (known_result_facts class_now t doc s Ht)
    as (Hrisk & Hadj & Hmax & _).
  pose proof (failed_count_nonneg (checks (validate class_now doc s))) as Hmin.
  cbv zeta. split; [ | exact Hrisk].
  destruct t; cbn [spec_base_risk spec_failed_step drawn_checks] in *; lia.
Qed.

Lemma clamp_never_applies_witness :
  let s := replay [1; 0; 1; 0; 20]%N in
  let r := validate 0 (sample_document "bank_statement") s in
  let raw := spec_base_risk BANK_STATEMENT
             + spec_failed_step BANK_STATEMENT * failed_count (checks r)
             + risk_adjustment BANK_STATEMENT s in
  0 <= raw <= 100 /\ risk_score r = raw.
Proof.
  apply (clamp_never_applies 0 BANK_STATEMENT
           (sample_document "bank_statement") (replay [1; 0; 1; 0; 20]%N)).
  reflexivity.
Defined.

(** X2.  The risk score of a document of known type lies between
    base - 10 and base + step * drawn checks + 10 (0..60 for a bank
    statement, 5..100 for a payslip, 10..80 for an IRP, 5..75 for a PPSN
    document, 15..95 for a tax record), and both ends are reached: the
    lowest when every check passes and the adjustment is -10, the highest
    when every drawn check fails and the adjustment is 10. *)
Theorem risk_score_range_is_tight
    (class_now : datetime) (t : DocumentType) (doc : Document) :
  document_type doc = DocumentType_value t ->
  (forall s, lowest_risk t <= risk_score (validate class_now doc s)
             <= highest_risk t) /\
  risk_score (validate class_now doc best_draws) = lowest_risk t /\
  risk_score (validate class_now doc (worst_draws_for t)) = highest_risk t.
Proof.
  intros Ht. split.
  - intros s.
    destruct (known_result_facts class_now t doc s Ht)
      as (Hrisk & Hadj & Hmax & _).
    pose proof (failed_count_nonneg (checks (validate class_now doc s)))
      as Hmin.
    rewrite Hrisk. unfold lowest_risk, highest_risk.
    destruct t; cbn [spec_base_risk spec_failed_step drawn_checks] in *; lia.
  - unfold validate.
    rewrite (validate_document_known class_now t doc Ht).
    destruct t; split; vm_compute; reflexivity.
Qed.

Lemma risk_score_range_is_tight_witness :
  let doc := sample_document "payslip" in
  (forall s, lowest_risk PAYSLIP <= risk_score (validate 0 doc s)
             <= highest_risk PAYSLIP) /\
  risk_score (validate 0 doc best_draws) = lowest_risk PAYSLIP /\
  risk_score (validate 0 doc (worst_draws_for PAYSLIP)) = highest_risk PAYSLIP.
Proof.
  apply (risk_score_range_is_tight 0 PAYSLIP (sample_document "payslip")).
  reflexivity.
Defined.

(** X3.  Among documents of one type, a result with fewer failed checks
    never has a higher risk score than a result with more failed checks,
    whatever the two adjustments: one step (at least 20) outweighs the
    widest gap between two adjustments (20). *)
Theorem fewer_failures_never_riskier
    (class_now : datetime) (t : DocumentType) (doc1 doc2 : Document)
    (s1 s2 : rng) :
  document_type doc1 = DocumentType_value t ->
  document_type doc2 = DocumentType_value t ->
  failed_count (checks (validate class_now doc1 s1))
  < failed_count (checks (validate class_now doc2 s2)) ->
  risk_score (validate class_now doc1 s1)
  <= risk_score (validate class_now doc2 s2).
Proof.
  intros Ht1 Ht2 Hlt.
  destruct (known_result_facts class_now t doc1 s1 Ht1) as (Hr1 & Ha1 & _).
  destruct (known_result_facts class_now t doc2 s2 Ht2) as (Hr2 & Ha2 & _).
  rewrite Hr1, Hr2.
  destruct t; cbn [spec_base_risk spec_failed_step]; lia.
Qed.

Lemma fewer_failures_never_riskier_witness :
  risk_score (validate 0 (sample_document "tax_record")
                       (replay [0; 0; 0; 0; 0; 0; 20]%N))
  <= risk_score (validate 0 (sample_document "tax_record")
                          (replay [2; 0; 0; 0; 0; 0; 0]%N)).
Proof.
  apply (fewer_failures_never_riskier 0 TAX_RECORD); reflexivity.
Defined.

(** X4.  For every document, of a known type or not, [anomalies] has
    exactly one entry per failed check: every check that can fail has a
    message.  So [anomalies] is empty exactly when the document is valid,
    and the display renders its anomaly section exactly for invalid
    documents. *)
Theorem anomalies_one_per_failure
    (class_now : datetime) (doc : Document) (s : rng) :
  let r := validate class_now doc s in
  Z.of_nat (List.length (anomalies r)) = failed_count (checks r) /\
  (anomalies r = [] <-> is_valid r = true) /\
  shows_anomalies r = negb (is_valid r).
Proof.
  cbv zeta.
  assert (Hboth :
            Z.of_nat (List.length (anomalies (validate class_now doc s)))
            = failed_count (checks (validate class_now doc s)) /\
            (anomalies (validate class_now doc s) = []
             <-> is_valid (validate class_now doc s) = true)).
  { destruct (known_type (document_type doc)) eqn:Hk.
    - destruct (known_type_value _ Hk) as (t & Ht).
      destruct (known_result_facts class_now t doc s Ht)
        as (_ & _ & _ & _ & _ & Hanom & Hcount & _).
      split; assumption.
    - unfold validate. rewrite (unknown_type_run class_now doc s Hk).
      cbn. split; [reflexivity | split; discriminate]. }
  destruct Hboth as (Hcount & Hiff).
  split; [exact Hcount | split; [exact Hiff | ] ].
  unfold shows_anomalies.
  destruct (anomalies (validate class_now doc s)) as [ | a l] eqn:Han;
    destruct (is_valid (validate class_now doc s)) eqn:Hv;
    try reflexivity.
  - destruct Hiff as [Hto _]. specialize (Hto eq_refl). discriminate Hto.
  - destruct Hiff as [_ Hfrom]. specialize (Hfrom eq_refl). discriminate Hfrom.
Qed.



(** X6.  Whatever the draws, the result for a document of known type
    lists the same check types in the same order, and no check type
    twice. *)
Theorem check_types_fixed
    (class_now : datetime) (t : DocumentType) (doc : Document) (s : rng) :
  document_type doc = DocumentType_value t ->
  map check_type (checks (validate class_now doc s)) = check_names t /\
  NoDup (map check_type (checks (validate class_now doc s))).
Proof.
  intros Ht.
  destruct (known_result_facts class_now t doc s Ht)
    as (_ & _ & _ & _ & Hnames & _).
  split; [exact Hnames | ].
  rewrite Hnames.
  destruct t; cbn [check_names];
    repeat (constructor; [cbn [In]; intuition discriminate | ]);
    constructor.
Qed.

Lemma check_types_fixed_witness :
  let r := validate 0 (sample_document "ppsn") (replay [2; 0; 0; 0; 9]%N) in
  map check_type (checks r) = check_names PPSN /\
  NoDup (map check_type (checks r)).
Proof.
  apply (check_types_fixed 0 PPSN (sample_document "ppsn")
           (replay [2; 0; 0; 0; 9]%N)).
  reflexivity.
Defined.

(** X7.  The validator reads nothing of a document but its type: two
    documents of the same type, with any file path, customer and
    metadata, get the same verdict, score, checks, anomalies and
    recommendations from the same draws; the document itself is handed
    back unchanged in the result. *)
Theorem result_depends_on_type_only
    (class_now : datetime) (doc1 doc2 : Document) (s : rng) :
  document_type doc1 = document_type doc2 ->
  let r1 := validate class_now doc1 s in
  let r2 := validate class_now doc2 s in
  document r1 = doc1 /\
  is_valid r1 = is_valid r2 /\
  risk_score r1 = risk_score r2 /\
  checks r1 = checks r2 /\
  anomalies r1 = anomalies r2 /\
  recommendations r1 = recommendations r2.
Proof.
  intros Hty. cbv zeta. unfold validate, validate_document.
  rewrite <- Hty.
  destruct (String.eqb (document_type doc1) (DocumentType_value BANK_STATEMENT));
  [ | destruct (String.eqb (document_type doc1) (DocumentType_value PAYSLIP));
      [ | destruct (String.eqb (document_type doc1) (DocumentType_value IRP));
          [ | destruct (String.eqb (document_type doc1)
                                   (DocumentType_value PPSN));
              [ | destruct (String.eqb (document_type doc1)
                                       (DocumentType_value TAX_RECORD)) ] ] ] ];
    expose; repeat split; reflexivity.
Qed.

Lemma result_depends_on_type_only_witness :
  let doc1 := sample_document "ppsn" in
  let doc2 := mk_Document "uploads/other.png" "ppsn" "Aoife" "C-17" 42
                          [("pages", "3")] in
  let r1 := validate 0 doc1 (replay [2; 0; 1; 0; 4]%N) in
  let r2 := validate 0 doc2 (replay [2; 0; 1; 0; 4]%N) in
  document r1 = doc1 /\
  is_valid r1 = is_valid r2 /\
  risk_score r1 = risk_score r2 /\
  checks r1 = checks r2 /\
  anomalies r1 = anomalies r2 /\
  recommendations r1 = recommendations r2.
Proof.
  apply (result_depends_on_type_only 0 (sample_document "ppsn")
           (mk_Document "uploads/other.png" "ppsn" "Aoife" "C-17" 42
                        [("pages", "3")])
           (replay [2; 0; 1; 0; 4]%N)).
  reflexivity.
Defined.

(** X8.  One call of [validate_document] advances the generator by
    exactly five draws for a bank statement, an IRP or a PPSN document, by
    seven for a payslip or a tax record, and by none for a document of
    unknown type; so the next call starts from the draw that follows. *)
Theorem draws_read_by_validate
    (class_now : datetime) (doc : Document) (s : rng) :
  validate_next class_now doc s = skip (draws_read doc) s.
Proof.
  unfold validate_next, draws_read, skip, validate_document.
  destruct (String.eqb (document_type doc) (DocumentType_value BANK_STATEMENT));
  [ | destruct (String.eqb (document_type doc) (DocumentType_value PAYSLIP));
      [ | destruct (String.eqb (document_type doc) (DocumentType_value IRP));
          [ | destruct (String.eqb (document_type doc)
                                   (DocumentType_value PPSN));
              [ | destruct (String.eqb (document_type doc)
                                       (DocumentType_value TAX_RECORD)) ] ] ] ];
    expose; track_cursor; try reflexivity.
  destruct s; reflexivity.
Qed.

(** X9.  How the display colours a result of [validate_document]: a valid
    document never gets the risk colour "negative" (its score is at most
    35), so a "negative" risk colour always comes with the status colour
    "negative"; a bank statement never gets the risk colour "negative",
    even with both drawn checks failed (its score is at most 60); a
    document of unknown type always gets "negative" for both. *)
Theorem risk_color_of_results
    (class_now : datetime) (doc : Document) (s : rng) :
  let r := validate class_now doc s in
  (is_valid r = true -> risk_color r <> "negative") /\
  (risk_color r = "negative" -> status_color r = "negative") /\
  (document_type doc = DocumentType_value BANK_STATEMENT ->
   risk_color r <> "negative") /\
  (known_type (document_type doc) = false ->
   risk_color r = "negative" /\ status_color r = "negative").
Proof.
  cbv zeta.
  assert (Hvalid : is_valid (validate class_now doc s) = true ->
                   risk_score (validate class_now doc s) < 70).
  { intros Hv. destruct (known_type (document_type doc)) eqn:Hk.
    - destruct (known_type_value _ Hk) as (t & Ht).
      destruct (known_result_facts class_now t doc s Ht)
        as (Hrisk & Hadj & _ & Hall & _).
      rewrite Hall in Hv. apply all_passed_iff_none_failed in Hv.
      rewrite Hrisk, Hv.
      destruct t; cbn [spec_base_risk spec_failed_step]; lia.
    - revert Hv. unfold validate.
      rewrite (unknown_type_run class_now doc s Hk). cbn. discriminate. }
  assert (Hred : forall r, risk_color r = "negative" -> 70 <= risk_score r).
  { intros r. unfold risk_color.
    destruct (Z.ltb_spec (risk_score r) 30); [discriminate | ].
    destruct (Z.ltb_spec (risk_score r) 70); [discriminate | ].
    intros _. assumption. }
  split; [ | split; [ | split] ].
  - intros Hv Hneg. apply Hred in Hneg. specialize (Hvalid Hv). lia.
  - intros Hneg. unfold status_color.
    destruct (is_valid (validate class_now doc s)) eqn:Hv; [ | reflexivity].
    apply Hred in Hneg. specialize (Hvalid eq_refl). lia.
  - intros Ht Hneg. apply Hred in Hneg.
    destruct (known_result_facts class_now BANK_STATEMENT doc s Ht)
      as (Hrisk & Hadj & Hmax & _).
    cbn [spec_base_risk spec_failed_step drawn_checks] in *. lia.
  - intros Hk. unfold validate.
    rewrite (unknown_type_run class_now doc s Hk). split; reflexivity.
Qed.

(* ===================================================================== *)
(** * Further probabilities *)
(* ===================================================================== *)

(** X10.  The probability that a document is found valid is 1/4 for a bank
    statement (two flags drawn from [True, False]), 4/9 for an IRP or a
    PPSN document (two flags drawn from [True, True, False]) and 8/27 for a
    payslip or a tax record (three such flags). *)
Theorem valid_probability_by_type
    (class_now : datetime) (t : DocumentType) (doc : Document) :
  document_type doc = DocumentType_value t ->
  (valid_probability class_now doc ==
   match t with
   | BANK_STATEMENT => 1 # 4
   | IRP | PPSN => 4 # 9
   | PAYSLIP | TAX_RECORD => 8 # 27
   end)%Q.
Proof.
  intros Ht. unfold valid_probability.
  rewrite (validate_document_known class_now t doc Ht).
  destruct t; expect_eval 2702159776422298%N.
Qed.

Lemma valid_probability_by_type_witness :
  (valid_probability 0%Z (sample_document "irp") == 4 # 9)%Q.
Proof.
  apply (valid_probability_by_type 0 IRP (sample_document "irp")).
  reflexivity.
Defined.

(** X11.  The mean risk score is 30 for a bank statement, 40 for a
    payslip, 110/3 for an IRP, 95/3 for a PPSN document and 45 for a tax
    record: the base plus the step times the mean number of failed
    checks, the adjustment having mean 0. *)
Theorem mean_risk_score_by_type
    (class_now : datetime) (t : DocumentType) (doc : Document) :
  document_type doc = DocumentType_value t ->
  (mean_risk_score class_now doc ==
   match t with
   | BANK_STATEMENT => 30
   | PAYSLIP => 40
   | IRP => 110 # 3
   | PPSN => 95 # 3
   | TAX_RECORD => 45
   end)%Q.
Proof.
  intros Ht. unfold mean_risk_score.
  rewrite (validate_document_known class_now t doc Ht).
  destruct t; expect_eval 2702159776422298%N.
Qed.

Lemma mean_risk_score_by_type_witness :
  (mean_risk_score 0%Z (sample_document "tax_record") == 45)%Q.
Proof.
  apply (mean_risk_score_by_type 0 TAX_RECORD (sample_document "tax_record")).
  reflexivity.
Defined.

(** X12.  The text of a drawn check does not depend on its flag.  Each
    drawn check shows its success text with probability
    6305039478318694 / 2^53 (just over 70%) for a bank statement and
    7205759403792793 / 2^53 (just under 80%) for the other types, and the
    probability that it fails and still shows the success text is the
    product of the probability of failing (1/2, or 1/3) and that
    probability. *)
Theorem details_drawn_independently
    (class_now : datetime) (t : DocumentType) (doc : Document) (j : nat)
    (text : string) :
  document_type doc = DocumentType_value t ->
  success_text t j = Some text ->
  (Pr (validate_document (M := Expect) class_now doc) (check_shows text j)
   == success_rate t)%Q /\
  (Pr (validate_document (M := Expect) class_now doc)
      (fun r => negb (check_passes j r) && check_shows text j r)
   == (1 - drawn_pass_rate t) * success_rate t)%Q.
Proof.
  intros Ht Htext.
  rewrite (validate_document_known class_now t doc Ht).
  destruct t; do 5 (try destruct j as [ | j]); try discriminate Htext;
    injection Htext as <-; split;
    lazymatch goal with
    | |- context [@_validate_bank_statement] =>
        expect_eval 2702159776422298%N
    | |- _ => expect_eval 1801439850948199%N
    end.
Qed.

Lemma details_drawn_independently_witness :
  let doc := sample_document "bank_statement" in
  let text := "Opening balance + transactions = closing balance" in
  (Pr (validate_document (M := Expect) 0%Z doc) (check_shows text 3)
   == success_rate BANK_STATEMENT)%Q /\
  (Pr (validate_document (M := Expect) 0%Z doc)
      (fun r => negb (check_passes 3 r) && check_shows text 3 r)
   == (1 - drawn_pass_rate BANK_STATEMENT) * success_rate BANK_STATEMENT)%Q.
Proof.
  apply (details_drawn_independently 0 BANK_STATEMENT
           (sample_document "bank_statement") 3); reflexivity.
Defined.
